(** * s21-monitor: the command tracker and the diff highlighter of
    [s21_common.py], embedded in Rocq.

    Conventions of the embedding.
    - A Python [str] is a [string]; one character is one [ascii].
    - [datetime] values are only stored and copied by the code, never
      inspected; they are integers here.
    - [self.commands] (a dict keyed by command name whose values are the
      four-key dicts written at the end of [update_command]) is a
      [gmap string CommandState]; [self.recent_changes] is a list.
    - A method that mutates [self] takes the tracker and returns the
      new tracker next to its result. *)

From Stdlib Require Import ZArith Lia Bool List Ascii.
From stdpp Require Import gmap strings list fin_maps sorting.

(** ** Python string primitives used by the source *)

Module Py.

(** [s[i]] for an index already known to satisfy [i < len(s)]: a string
    of length one.  Out of range the guarded uses below never evaluate
    it; the model gives the empty string there. *)
Definition index (s : string) (i : nat) : string :=
  match String.get i s with
  | Some c => String c EmptyString
  | None => EmptyString
  end.

(** [s[:n]]: a negative bound counts from the end of the string. *)
Definition slice_to (s : string) (n : Z) : string :=
  if (0 <=? n)%Z then String.substring 0 (Z.to_nat n) s
  else String.substring 0 (Z.to_nat (Z.of_nat (String.length s) + n)) s.

(** [''.join(parts)] *)
Definition join (parts : list string) : string :=
  String.concat "" parts.

(** Truthiness of a string: non-empty. *)
Definition truthy (s : string) : bool :=
  match s with
  | EmptyString => false
  | String _ _ => true
  end.

(** [a != b] on strings. *)
Definition neq (a b : string) : bool := negb (String.eqb a b).

End Py.

(** ** [highlight_diff] *)

(** ['\033[7m'] and ['\033[0m'] *)
Definition INVERT : string := String "027"%char "[7m".
Definition RESET : string := String "027"%char "[0m".

(** One iteration of the [for i in range(max_len)] loop; the state is the
    pair of lists [old_result], [new_result]. *)
Definition highlight_step (old_str new_str : string)
    (acc : list string * list string) (i : nat) : list string * list string :=
  let '(old_result, new_result) := acc in
  let old_char :=
    if i <? String.length old_str then Py.index old_str i else "" in
  let new_char :=
    if i <? String.length new_str then Py.index new_str i else "" in
  if Py.neq old_char new_char then
    let old_result :=
      if Py.truthy old_char
      then old_result ++ [INVERT +:+ old_char +:+ RESET] else old_result in
    let new_result :=
      if Py.truthy new_char
      then new_result ++ [INVERT +:+ new_char +:+ RESET] else new_result in
    (old_result, new_result)
  else
    (old_result ++ [old_char], new_result ++ [new_char]).

Definition highlight_diff (old_str new_str : string) : string * string :=
  if String.eqb old_str new_str then (old_str, new_str)
  else
    let max_len := Nat.max (String.length old_str) (String.length new_str) in
    let '(old_result, new_result) :=
      fold_left (highlight_step old_str new_str) (seq 0 max_len) ([], []) in
    (Py.join old_result, Py.join new_result).

(** ** [truncate_value] *)

Definition truncate_value (value : string) (max_length : Z) : string :=
  if (Z.of_nat (String.length value) >? max_length)%Z
  then Py.slice_to value (max_length - 3) +:+ "..."
  else value.

(** ** [S21CommandTracker] *)

Definition datetime : Type := Z.

(** The dict stored under each command: keys ['value'], ['direction'],
    ['timestamp'], ['dump']. *)
Record CommandState : Type := mkCommandState {
  st_value : string;
  st_direction : string;
  st_timestamp : datetime;
  st_dump : string
}.

(** The dict appended to [recent_changes]. *)
Record ChangeRecord : Type := mkChangeRecord {
  cr_command : string;
  cr_old_value : string;
  cr_new_value : string;
  cr_old_dump : string;
  cr_new_dump : string;
  cr_direction : string;
  cr_timestamp : datetime;
  cr_value_changed : bool;
  cr_dump_changed : bool
}.

Record S21CommandTracker : Type := mkTracker {
  commands : gmap string CommandState;
  recent_changes : list ChangeRecord
}.

#[global] Instance CommandState_eq_dec : EqDecision CommandState.
Proof. solve_decision. Defined.

#[global] Instance ChangeRecord_eq_dec : EqDecision ChangeRecord.
Proof. solve_decision. Defined.

(** [__init__] *)
Definition init : S21CommandTracker :=
  {| commands := ∅; recent_changes := [] |}.

(** The branch on [command in self.commands]: the five locals it sets,
    [old_value] being [None] when the command is new. *)
Definition classify (self : S21CommandTracker) (command value direction dump : string)
    : option string * string * bool * bool * bool :=
  match commands self !! command with
  | Some st =>
      let old_value := Some (st_value st) in
      let old_dump := st_dump st in
      let value_changed := Py.neq (st_value st) value in
      let dump_changed := Py.neq old_dump dump in
      let direction_changed := Py.neq (st_direction st) direction in
      let changed := value_changed || dump_changed || direction_changed in
      (old_value, old_dump, changed, value_changed, dump_changed)
  | None => (None, "", true, true, true)
  end.

(** [self.recent_changes.append(r)] followed by the [pop(0)] guarded by
    [len(self.recent_changes) > 5]. *)
Definition append_bounded (history : list ChangeRecord) (r : ChangeRecord)
    : list ChangeRecord :=
  let history := history ++ [r] in
  if 5 <? length history then tail history else history.

Definition update_command (self : S21CommandTracker)
    (command value direction : string) (timestamp : datetime) (dump : string)
    : bool * S21CommandTracker :=
  let '(old_value, old_dump, changed, value_changed, dump_changed) :=
    classify self command value direction dump in
  let history :=
    match old_value with
    | Some old_value =>
        if changed && (value_changed || dump_changed) then
          append_bounded (recent_changes self)
            {| cr_command := command;
               cr_old_value := old_value;
               cr_new_value := value;
               cr_old_dump := old_dump;
               cr_new_dump := dump;
               cr_direction := direction;
               cr_timestamp := timestamp;
               cr_value_changed := value_changed;
               cr_dump_changed := dump_changed |}
        else recent_changes self
    | None => recent_changes self
    end in
  let state :=
    {| st_value := value; st_direction := direction;
       st_timestamp := timestamp; st_dump := dump |} in
  (changed, {| commands := <[command := state]> (commands self);
               recent_changes := history |}).

(** [sorted(self.commands.items())].  The items are (key, dict) pairs and
    the keys of a dict are pairwise distinct, so the tuple comparison is
    always settled by the keys. *)
Definition items_le (x y : string * CommandState) : Prop := String.le x.1 y.1.

#[global] Instance items_le_dec : RelDecision items_le.
Proof. intros x y. unfold items_le. apply _. Defined.

Definition get_sorted_commands (self : S21CommandTracker)
    : list (string * CommandState) :=
  merge_sort items_le (map_to_list (commands self)).

(** ** Sequences of calls *)

(** The arguments of one [update_command] call. *)
Record Call : Type := mkCall {
  call_command : string;
  call_value : string;
  call_direction : string;
  call_timestamp : datetime;
  call_dump : string
}.

Definition apply_call (self : S21CommandTracker) (c : Call)
    : bool * S21CommandTracker :=
  update_command self (call_command c) (call_value c) (call_direction c)
    (call_timestamp c) (call_dump c).

(** The tracker after the calls of [calls], in order, on [self]. *)
Definition run (calls : list Call) (self : S21CommandTracker)
    : S21CommandTracker :=
  fold_left (λ t c, (apply_call t c).2) calls self.

(** The state a call writes. *)
Definition call_state (c : Call) : CommandState :=
  {| st_value := call_value c; st_direction := call_direction c;
     st_timestamp := call_timestamp c; st_dump := call_dump c |}.

(** The most recent call of [calls] for [command], if any. *)
Definition last_call (command : string) (calls : list Call) : option Call :=
  List.find (λ c, String.eqb (call_command c) command) (rev calls).

(** The record [update_command] appends for a change of a tracked
    command whose stored state is [st]. *)
Definition change_record (st : CommandState)
    (command value direction : string) (timestamp : datetime) (dump : string)
    : ChangeRecord :=
  {| cr_command := command;
     cr_old_value := st_value st;
     cr_new_value := value;
     cr_old_dump := st_dump st;
     cr_new_dump := dump;
     cr_direction := direction;
     cr_timestamp := timestamp;
     cr_value_changed := Py.neq (st_value st) value;
     cr_dump_changed := Py.neq (st_dump st) dump |}.

(** Keys in strictly ascending order. *)
Definition items_lt (x y : string * CommandState) : Prop :=
  String.ltb x.1 y.1 = true.

(** Sample traffic: command [D1] first seen with value [00], then five
    changes of its value. *)
Definition sample_calls : list Call :=
  [ mkCall "D1" "00" "RX" 1 "";
    mkCall "D1" "01" "RX" 2 "";
    mkCall "D1" "02" "RX" 3 "";
    mkCall "D1" "03" "TX" 4 "";
    mkCall "D1" "04" "RX" 5 "";
    mkCall "D1" "05" "RX" 6 "" ]%Z.

Definition sample_state : CommandState :=
  {| st_value := "05"; st_direction := "RX"; st_timestamp := 6%Z;
     st_dump := "" |}.

(** ** Reference definitions for the highlighter

    [mark_positions] follows the description of the walk: position by
    position up to the longer length, a character is wrapped exactly when
    the other string has a different character, or none, at its position. *)

Definition mark_at (s other : string) (i : nat) : string :=
  match String.get i s with
  | None => ""
  | Some c =>
      if decide (String.get i other = Some c) then String c ""
      else INVERT +:+ String c "" +:+ RESET
  end.

Definition mark_positions (s other : string) : string :=
  Py.join
    (map (mark_at s other)
       (seq 0 (Nat.max (String.length s) (String.length other)))).

(** The same marking by recursion on the two strings. *)
Fixpoint mark (s other : string) : string :=
  match s with
  | "" => ""
  | String a s' =>
      match other with
      | String b other' =>
          if Ascii.eqb a b then String a (mark s' other')
          else INVERT +:+ String a (RESET +:+ mark s' other')
      | "" => INVERT +:+ String a (RESET +:+ mark s' "")
      end
  end.

(** Four characters spelling one of the two markers. *)
Definition is_marker (c0 c1 c2 c3 : ascii) : bool :=
  let w := String c0 (String c1 (String c2 (String c3 ""))) in
  String.eqb w INVERT || String.eqb w RESET.

(** Deleting the markers in one scan from the left: at a marker the four
    characters are dropped, anywhere else one character is kept. *)
Fixpoint strip_markers (s : string) : string :=
  match s with
  | "" => ""
  | String c0 r =>
      match r with
      | String c1 (String c2 (String c3 r')) =>
          if is_marker c0 c1 c2 c3 then strip_markers r'
          else String c0 (strip_markers r)
      | _ => String c0 (strip_markers r)
      end
  end.

(** [m in s] for strings. *)
Fixpoint contains (m s : string) : bool :=
  String.prefix m s ||
  match s with
  | "" => false
  | String _ r => contains m r
  end.

Definition marker_free (s : string) : bool :=
  negb (contains INVERT s) && negb (contains RESET s).

(** [agrees_until_esc out s]: [out] and [s] carry the same characters up
    to the first escape character of [out] (or to the end of both). *)
Inductive agrees_until_esc : string → string → Prop :=
  | agrees_nil : agrees_until_esc "" ""
  | agrees_esc out s : agrees_until_esc (String "027" out) s
  | agrees_cons c out s :
      agrees_until_esc out s → agrees_until_esc (String c out) (String c s).

(** Every character wrapped on its own. *)
Definition wrap_each (t : string) : string :=
  Py.join
    (map (λ c, INVERT +:+ String c "" +:+ RESET) (String.list_ascii_of_string t)).

(** [l[-n:]]: the last [n] elements, the whole list when it is shorter. *)
Definition slice_last {A} (n : nat) (l : list A) : list A :=
  drop (length l - n) l.

(** The record a call gives rise to on tracker [t] when it is
    change-worthy: the command is tracked and the value or the dump of
    the call differs from the stored one. *)
Definition change_of (t : S21CommandTracker) (c : Call) : list ChangeRecord :=
  match commands t !! call_command c with
  | Some st =>
      if bool_decide (st_value st ≠ call_value c ∨ st_dump st ≠ call_dump c)
      then [change_record st (call_command c) (call_value c)
              (call_direction c) (call_timestamp c) (call_dump c)]
      else []
  | None => []
  end.

(** All change-worthy updates of a call sequence on a fresh tracker, in
    arrival order, each judged on the tracker left by the calls before
    it. *)
Definition change_log (calls : list Call) : list ChangeRecord :=
  mjoin (imap (λ i c, change_of (run (take i calls) init) c) calls).

(** ** One row of the table printed by [update_display] *)

(** [f"{s:<w}"]: [s] padded with spaces on the right up to width [w]; a
    longer [s] is left as it is. *)
Definition ljust (w : nat) (s : string) : string :=
  s +:+ String.string_of_list_ascii (replicate (w - String.length s) " "%char).

(** The line printed for one command; [timestamp_text] is what
    [format_timestamp] (a [strftime] call) returned for the stored
    timestamp. *)
Definition table_row (command : string) (data : CommandState)
    (timestamp_text : string) : string :=
  let value := st_value data in
  let direction := st_direction data in
  let dump := st_dump data in
  let display_value := truncate_value value 18 in
  let display_dump := truncate_value dump 23 in
  ljust 8 command +:+ " " +:+ ljust 4 direction +:+ " "
    +:+ ljust 20 display_value +:+ " " +:+ ljust 25 display_dump +:+ " "
    +:+ ljust 10 timestamp_text.

(** ** [S21Parser] *)

(** [ord(c)] *)
Definition ord (c : ascii) : N := N_of_ascii c.

(** The digits of [f'{n:X}']. *)
Fixpoint upper_hex (d : Hexadecimal.uint) : string :=
  match d with
  | Hexadecimal.Nil => ""
  | Hexadecimal.D0 d => String "0" (upper_hex d)
  | Hexadecimal.D1 d => String "1" (upper_hex d)
  | Hexadecimal.D2 d => String "2" (upper_hex d)
  | Hexadecimal.D3 d => String "3" (upper_hex d)
  | Hexadecimal.D4 d => String "4" (upper_hex d)
  | Hexadecimal.D5 d => String "5" (upper_hex d)
  | Hexadecimal.D6 d => String "6" (upper_hex d)
  | Hexadecimal.D7 d => String "7" (upper_hex d)
  | Hexadecimal.D8 d => String "8" (upper_hex d)
  | Hexadecimal.D9 d => String "9" (upper_hex d)
  | Hexadecimal.Da d => String "A" (upper_hex d)
  | Hexadecimal.Db d => String "B" (upper_hex d)
  | Hexadecimal.Dc d => String "C" (upper_hex d)
  | Hexadecimal.Dd d => String "D" (upper_hex d)
  | Hexadecimal.De d => String "E" (upper_hex d)
  | Hexadecimal.Df d => String "F" (upper_hex d)
  end.

(** [f'{n:02X}']: upper-case hexadecimal, filled with zeros on the left up
    to two digits. *)
Definition format_02X (n : N) : string :=
  let digits := upper_hex (N.to_hex_uint n) in
  String.string_of_list_ascii
    (replicate (2 - String.length digits) "0"%char) +:+ digits.

(** [to_hex_string] on a [str] argument.  [ord] and the format cannot
    raise, so the [except] branches are never entered. *)
Definition to_hex_string (value : string) : string :=
  if negb (Py.truthy value) then ""
  else
    Py.join
      (map (λ c, format_02X (ord c)) (String.list_ascii_of_string value)).

(** What [json.loads] returned: an object, here one whose members are all
    strings, in the order of the dict; or a value without a [get] method
    (an array, a string, a number, a boolean, null).  Objects with other
    members are outside this model. *)
Inductive Json : Type :=
  | JObject (members : list (string * string))
  | JOther.

(** [d.get(key)] on the members of an object; [None] is Python's. *)
Fixpoint dict_get (key : string) (members : list (string * string))
    : option string :=
  match members with
  | [] => None
  | (k, v) :: members => if String.eqb k key then Some v else dict_get key members
  end.

(** The dict appended to [commands] by [parse_s21_packet]. *)
Record Packet : Type := mkPacket {
  p_command : string;
  p_payload : string;
  p_raw_payload : string;
  p_dump : string;
  p_raw : string;
  p_timestamp : datetime
}.

(** The test [key not in ['protocol', 'dump'] and len(key) >= 2]. *)
Definition is_command_key (key : string) : bool :=
  negb (String.eqb key "protocol" || String.eqb key "dump")
  && (2 <=? String.length key).

Section Parser.

(** [json.loads]: [None] when it raises. *)
Variable loads : string → option Json.

(** The successive results of [datetime.now()] during one call. *)
Variable now : nat → datetime.

(** One iteration of [for key, value in json_data.items()]; the clock has
    been read once for every packet appended so far. *)
Definition parse_step (data dump_data : string) (commands : list Packet)
    (item : string * string) : list Packet :=
  let '(key, value) := item in
  if is_command_key key then
    let hex_value := to_hex_string value in
    commands ++
      [ {| p_command := key;
           p_payload := hex_value;
           p_raw_payload := if Py.truthy value then value else "";
           p_dump := dump_data;
           p_raw := data;
           p_timestamp := now (length commands) |} ]
  else commands.

Definition parse_s21_packet (data : string) : list Packet :=
  if negb (Py.truthy data) then []
  else
    match loads data with
    | None => []
    | Some JOther => []
    | Some (JObject json_data) =>
        if bool_decide (dict_get "protocol" json_data = Some "S21") then
          let dump_data := default "" (dict_get "dump" json_data) in
          fold_left (parse_step data dump_data) json_data []
        else []
    end.

(** The packet made from the [k]-th command member of an object. *)
Definition packet_of (data dump_data : string) (k : nat)
    (item : string * string) : Packet :=
  {| p_command := item.1;
     p_payload := to_hex_string item.2;
     p_raw_payload := item.2;
     p_dump := dump_data;
     p_raw := data;
     p_timestamp := now k |}.

End Parser.

(** ** [S21DebugMonitor.on_message] *)

(** [s.endswith(suffix)] *)
Definition endswith (s suffix : string) : bool :=
  let n := String.length s in
  let m := String.length suffix in
  (m <=? n) && String.eqb (String.substring (n - m) m s) suffix.

(** A delivered message: its topic, its payload decoded as UTF-8 ([None]
    when the decoding raises) and the clock readings made while it is
    handled. *)
Record Message : Type := mkMessage {
  msg_topic : string;
  msg_payload : option string;
  msg_now : nat → datetime
}.

(** One iteration of [for packet in packets]; the state is the tracker
    and [has_changes]. *)
Definition message_step (direction : string)
    (acc : S21CommandTracker * bool) (packet : Packet)
    : S21CommandTracker * bool :=
  let '(tracker, has_changes) := acc in
  let '(changed, tracker) :=
    update_command tracker (p_command packet) (p_payload packet) direction
      (p_timestamp packet) (p_dump packet) in
  (tracker, if changed then true else has_changes).

(** [on_message] on the monitor's tracker: the tracker afterwards and
    whether [update_display] was called.  An exception leaves the handler
    through [except Exception: pass]. *)
Definition on_message (loads : string → option Json)
    (tracker : S21CommandTracker) (msg : Message)
    : S21CommandTracker * bool :=
  match msg_payload msg with
  | None => (tracker, false)
  | Some payload =>
      let direction := if endswith (msg_topic msg) "/tx" then "TX" else "RX" in
      let packets := parse_s21_packet loads (msg_now msg) payload in
      match packets with
      | [] => (tracker, false)
      | _ :: _ => fold_left (message_step direction) packets (tracker, false)
      end
  end.

(** The tracker after the messages of [msgs], in order. *)
Definition deliver (loads : string → option Json) (msgs : list Message)
    (tracker : S21CommandTracker) : S21CommandTracker :=
  fold_left (λ t msg, (on_message loads t msg).1) msgs tracker.

(** A decoder that knows two payloads. *)
Definition sample_payload : string := "{payload}".
Definition sample_payload' : string := "{payload'}".

Definition sample_loads (data : string) : option Json :=
  if String.eqb data sample_payload
  then Some (JObject [("protocol", "S21"); ("F1", "10"); ("x", "y");
                      ("dump", "F1 10"); ("RH", "A+")])
  else if String.eqb data sample_payload'
  then Some (JObject [("protocol", "S21"); ("F1", "11")])
  else None.

Definition sample_message (topic : string) (t0 : Z) : Message :=
  {| msg_topic := topic; msg_payload := Some sample_payload;
     msg_now := λ k, (t0 + Z.of_nat k)%Z |}.

(** The sixteen upper-case hexadecimal digits. *)
Definition is_hex_digit (c : ascii) : bool :=
  match String.index 0 (String c "") "0123456789ABCDEF" with
  | Some _ => true
  | None => false
  end.

Fixpoint hex_string (s : string) : bool :=
  match s with
  | "" => true
  | String c s => is_hex_digit c && hex_string s
  end.

(** Reading two hexadecimal digits back as a character, and a string of
    such pairs as a string; the inverse of the encoding of
    [to_hex_string]. *)
Definition hex_digit_value (c : ascii) : N :=
  match String.index 0 (String c "") "0123456789ABCDEF" with
  | Some n => N.of_nat n
  | None => 0
  end.

Fixpoint from_hex_string (s : string) : string :=
  match s with
  | String h (String l rest) =>
      String (ascii_of_N (16 * hex_digit_value h + hex_digit_value l))
        (from_hex_string rest)
  | _ => ""
  end.


(** A tracker filled from S21 packets only: commands are command keys,
    directions are ["TX"] or ["RX"], and the values, stored or recorded in
    the history, are hexadecimal encodings. *)
Definition tracker_inv (t : S21CommandTracker) : Prop :=
  (∀ k st, commands t !! k = Some st →
     is_command_key k = true
     ∧ (st_direction st = "TX" ∨ st_direction st = "RX")
     ∧ ∃ v, st_value st = to_hex_string v)
  ∧ (∀ r, r ∈ recent_changes t →
       is_command_key (cr_command r) = true
       ∧ (cr_direction r = "TX" ∨ cr_direction r = "RX")
       ∧ ∃ v1 v2, cr_old_value r = to_hex_string v1
                  ∧ cr_new_value r = to_hex_string v2).

(** ** [S21Config]: the two topics *)

(** [f"info/{self.base_path}/tx"] and [f"info/{self.base_path}/rx"];
    [base_path] is [os.getenv('DEVICE_ID')], [None] when the variable is
    not set, which the f-string prints as [None]. *)
Definition base_path_text (base_path : option string) : string :=
  default "None" base_path.

Definition tx_topic (base_path : option string) : string :=
  "info/" +:+ base_path_text base_path +:+ "/tx".

Definition rx_topic (base_path : option string) : string :=
  "info/" +:+ base_path_text base_path +:+ "/rx".

(** The direction [on_message] derives from a topic. *)
Definition topic_direction (topic : string) : string :=
  if endswith topic "/tx" then "TX" else "RX".

(** The old dump as [update_display] prints it on the DUMP line:
    highlighted, then cut to 35 characters. *)
Definition old_dump_short (old_dump new_dump : string) : string :=
  truncate_value (highlight_diff old_dump new_dump).1 35.

Example scenario_D1 :
  let t1 := update_command init "D1" "00" "RX" 1%Z "" in
  let t2 := update_command t1.2 "D1" "01" "RX" 2%Z "" in
  let t3 := update_command t2.2 "D1" "01" "RX" 3%Z "" in
  (t1.1, recent_changes t1.2, t2.1, recent_changes t2.2, t3.1,
   recent_changes t3.2)
  = (true, [], true, [mkChangeRecord "D1" "00" "01" "" "" "RX" 2%Z true false],
     false, [mkChangeRecord "D1" "00" "01" "" "" "RX" 2%Z true false]).
Proof. vm_compute. reflexivity. Qed.

(** * Properties of the highlighter *)

Section Highlight.

Implicit Types s other old_str new_str : string.

Lemma string_app_cons a s1 s2 : String a s1 +:+ s2 = String a (s1 +:+ s2).
Proof. reflexivity. Qed.

Lemma string_app_nil_l s : "" +:+ s = s.
Proof. reflexivity. Qed.

Lemma string_app_nil_r s : s +:+ "" = s.
Proof.
  induction s as [|a s IH]; [done|]. by rewrite string_app_cons, IH.
Qed.

Lemma string_app_assoc s1 s2 s3 : (s1 +:+ s2) +:+ s3 = s1 +:+ s2 +:+ s3.
Proof.
  induction s1 as [|a s1 IH]; [done|]. by rewrite !string_app_cons, IH.
Qed.

Lemma string_app_length s1 s2 :
  String.length (s1 +:+ s2) = String.length s1 + String.length s2.
Proof.
  induction s1 as [|a s1 IH]; [done|].
  rewrite string_app_cons. simpl. by rewrite IH.
Qed.

Lemma join_nil : Py.join [] = "".
Proof. reflexivity. Qed.

Lemma join_cons x l : Py.join (x :: l) = x +:+ Py.join l.
Proof.
  destruct l as [|y l]; [|done].
  change (x = x +:+ ""). by rewrite string_app_nil_r.
Qed.

Lemma join_snoc l x : Py.join (l ++ [x]) = Py.join l +:+ x.
Proof.
  induction l as [|y l IH]; [done|].
  change ((y :: l) ++ [x]) with (y :: (l ++ [x])).
  by rewrite !join_cons, IH, string_app_assoc.
Qed.

Lemma join_empties {A} (l : list A) : Py.join (map (λ _, "") l) = "".
Proof.
  induction l as [|x l IH]; [done|].
  change (Py.join ("" :: map (λ _ : A, "") l) = ""). by rewrite join_cons, IH.
Qed.

Lemma get_ge s i : String.length s ≤ i → String.get i s = None.
Proof.
  revert i. induction s as [|a s IH]; intros i Hi; [by destruct i|].
  destruct i as [|i]; simpl in *; [lia|]. apply IH. lia.
Qed.

Lemma get_lt s i : i < String.length s → is_Some (String.get i s).
Proof.
  revert i. induction s as [|a s IH]; intros i Hi; simpl in *; [lia|].
  destruct i as [|i]; [by eexists|]. apply IH. lia.
Qed.

(** The guard [i < len(s)] of the source selects what [Py.index] gives
    anyway. *)
Lemma guarded_index s i :
  (if i <? String.length s then Py.index s i else "") = Py.index s i.
Proof.
  destruct (Nat.ltb_spec i (String.length s)) as [|Hge]; [done|].
  unfold Py.index. by rewrite (get_ge _ _ Hge).
Qed.

Lemma neq_true_iff a b : Py.neq a b = true ↔ a ≠ b.
Proof.
  unfold Py.neq. destruct (String.eqb_spec a b); simpl; split; congruence.
Qed.

(** One loop iteration extends the two joined results by the marking of
    position [i]. *)
Lemma highlight_step_join old_str new_str acc i :
  Py.join (highlight_step old_str new_str acc i).1
    = Py.join acc.1 +:+ mark_at old_str new_str i
  ∧ Py.join (highlight_step old_str new_str acc i).2
    = Py.join acc.2 +:+ mark_at new_str old_str i.
Proof.
  destruct acc as [old_result new_result].
  unfold highlight_step, mark_at. rewrite !guarded_index. unfold Py.index.
  destruct (String.get i old_str) as [a|], (String.get i new_str) as [b|];
    simpl.
  - unfold Py.neq. simpl.
    destruct (Ascii.eqb_spec a b) as [->|Hne]; simpl; rewrite !join_snoc.
    + by rewrite !decide_True.
    + by rewrite !decide_False by congruence.
  - by rewrite join_snoc, string_app_nil_r.
  - by rewrite join_snoc, string_app_nil_r.
  - by rewrite !join_snoc, !string_app_nil_r.
Qed.

Lemma highlight_loop_join old_str new_str (positions : list nat) acc :
  let acc' := fold_left (highlight_step old_str new_str) positions acc in
  Py.join acc'.1
    = Py.join acc.1 +:+ Py.join (map (mark_at old_str new_str) positions)
  ∧ Py.join acc'.2
    = Py.join acc.2 +:+ Py.join (map (mark_at new_str old_str) positions).
Proof.
  revert acc. induction positions as [|i positions IH]; intros acc; simpl.
  - by rewrite join_nil, !string_app_nil_r.
  - destruct (IH (highlight_step old_str new_str acc i)) as [-> ->].
    destruct (highlight_step_join old_str new_str acc i) as [-> ->].
    by rewrite !join_cons, !string_app_assoc.
Qed.

Lemma mark_at_nil other i : mark_at "" other i = "".
Proof. unfold mark_at. by destruct i. Qed.

Lemma mark_at_S_cons a s b other i :
  mark_at (String a s) (String b other) (S i) = mark_at s other i.
Proof. reflexivity. Qed.

Lemma mark_at_S_nil a s i : mark_at (String a s) "" (S i) = mark_at s "" i.
Proof.
  unfold mark_at. simpl. destruct (String.get i s) as [c|]; [|done].
  by destruct i.
Qed.

Lemma wrap_app a rest :
  (INVERT +:+ String a "" +:+ RESET) +:+ rest
  = INVERT +:+ String a (RESET +:+ rest).
Proof. by rewrite !string_app_assoc. Qed.

(** Joining the positionwise markings of any range that covers [s] gives
    the recursive marking. *)
Lemma join_mark_at s : ∀ other n,
  String.length s ≤ n →
  Py.join (map (mark_at s other) (seq 0 n)) = mark s other.
Proof.
  induction s as [|a s IH]; intros other n Hn.
  - rewrite (map_ext _ (λ _, "")) by apply mark_at_nil.
    apply join_empties.
  - destruct n as [|n]; simpl in Hn; [lia|].
    rewrite <- cons_seq, <- seq_shift, map_cons, map_map, join_cons.
    destruct other as [|b other].
    + rewrite (map_ext _ (mark_at s "")) by apply mark_at_S_nil.
      rewrite IH by lia. unfold mark_at. simpl. apply wrap_app.
    + rewrite (map_ext _ (mark_at s other)) by (intros; apply mark_at_S_cons).
      rewrite IH by lia. unfold mark_at. simpl.
      destruct (Ascii.eqb_spec a b) as [->|Hne].
      * by rewrite decide_True.
      * rewrite decide_False by congruence. apply wrap_app.
Qed.

Lemma mark_positions_mark s other : mark_positions s other = mark s other.
Proof. unfold mark_positions. apply join_mark_at. lia. Qed.

Lemma mark_same s : mark s s = s.
Proof.
  induction s as [|a s IH]; simpl; [done|].
  by rewrite Ascii.eqb_refl, IH.
Qed.

(** The loop computes the two markings; the early return agrees with
    them. *)
Lemma highlight_diff_mark old_str new_str :
  highlight_diff old_str new_str = (mark old_str new_str, mark new_str old_str).
Proof.
  unfold highlight_diff.
  destruct (String.eqb_spec old_str new_str) as [->|Hne].
  - by rewrite mark_same.
  - pose proof (highlight_loop_join old_str new_str
      (seq 0 (Nat.max (String.length old_str) (String.length new_str)))
      ([], [])) as [H1 H2].
    simpl in H1, H2.
    destruct (fold_left _ _ _) as [old_result new_result].
    simpl in H1, H2. rewrite H1, H2, !join_nil, !string_app_nil_l.
    f_equal; apply join_mark_at; lia.
Qed.

(** *** Stripping the markers *)

Lemma strip_INVERT rest : strip_markers (INVERT +:+ rest) = strip_markers rest.
Proof. reflexivity. Qed.

Lemma strip_RESET rest : strip_markers (RESET +:+ rest) = strip_markers rest.
Proof. reflexivity. Qed.

Lemma is_marker_spec c0 c1 c2 c3 :
  is_marker c0 c1 c2 c3 = true →
  c0 = "027"%char ∧ c1 = "["%char ∧ (c2 = "7"%char ∨ c2 = "0"%char)
  ∧ c3 = "m"%char.
Proof.
  unfold is_marker. intros [H|H]%orb_true_iff;
    apply String.eqb_eq in H; unfold INVERT, RESET in H; simplify_eq;
    auto.
Qed.

(** A character followed by an escape character starts no marker. *)
Lemma strip_before_esc a rest :
  strip_markers (String a (String "027" rest))
  = String a (strip_markers (String "027" rest)).
Proof.
  destruct rest as [|c2 [|c3 rest]]; try reflexivity.
  cbn [strip_markers].
  destruct (is_marker a "027" c2 c3) eqn:H; [|done].
  apply is_marker_spec in H. by destruct H as (_ & ? & _).
Qed.

Lemma mark_agrees s : ∀ other, agrees_until_esc (mark s other) s.
Proof.
  induction s as [|a s IH]; intros other; simpl; [constructor|].
  destruct other as [|b other]; [apply agrees_esc|].
  destruct (Ascii.eqb a b); [apply agrees_cons, IH | apply agrees_esc].
Qed.

(** A kept character in front of output that agrees with the input
    starts a marker only if the input does. *)
Lemma strip_keep c out s :
  agrees_until_esc out s →
  String.prefix INVERT (String c s) = false →
  String.prefix RESET (String c s) = false →
  strip_markers (String c out) = String c (strip_markers out).
Proof.
  intros Hag HI HR.
  destruct out as [|c1 [|c2 [|c3 out]]]; try reflexivity.
  cbn [strip_markers].
  destruct (is_marker c c1 c2 c3) eqn:Hm; [exfalso|done].
  apply is_marker_spec in Hm as (-> & -> & H2 & ->).
  inversion Hag as [| |? ? s1 Hag1]; subst.
  inversion Hag1 as [| |? ? s2 Hag2]; subst; [by destruct H2|].
  inversion Hag2 as [| |? ? s3 Hag3]; subst.
  destruct H2 as [->| ->], s3; vm_compute in HI, HR; congruence.
Qed.

Lemma contains_cons m a s :
  contains m (String a s) = false →
  String.prefix m (String a s) = false ∧ contains m s = false.
Proof. simpl. by intros ?%orb_false_iff. Qed.

Lemma strip_mark s : ∀ other,
  marker_free s = true → strip_markers (mark s other) = s.
Proof.
  unfold marker_free.
  induction s as [|a s IH]; intros other Hfree; [done|].
  apply andb_true_iff in Hfree as [HI%negb_true_iff HR%negb_true_iff].
  apply contains_cons in HI as [HI HI'], HR as [HR HR'].
  assert (∀ other', strip_markers (mark s other') = s) as IH'.
  { intros other'. apply IH. by rewrite HI', HR'. }
  assert (∀ other',
    strip_markers (INVERT +:+ String a (RESET +:+ mark s other'))
    = String a s) as Hwrap.
  { intros other'. rewrite strip_INVERT.
    change (RESET +:+ mark s other') with
      (String "027" ("[0m" +:+ mark s other')).
    rewrite strip_before_esc.
    change (String "027" ("[0m" +:+ mark s other')) with
      (RESET +:+ mark s other').
    by rewrite strip_RESET, IH'. }
  simpl. destruct other as [|b other]; [apply Hwrap|].
  destruct (Ascii.eqb a b); [|apply Hwrap].
  rewrite (strip_keep a _ s); [by rewrite IH' | apply mark_agrees | done..].
Qed.

(** *** The claims about [highlight_diff] *)

(** C7: each output of [highlight_diff] is the concatenation, over the
    positions below the longer length, of the character the string has
    there, wrapped in [INVERT] and [RESET] exactly when the other string
    has a different character or none at that position, and of nothing
    where the string has no character; the two examples of the
    specification come out as stated. *)
Theorem highlight_diff_positionwise :
  (∀ old_str new_str,
     highlight_diff old_str new_str
     = (mark_positions old_str new_str, mark_positions new_str old_str))
  ∧ highlight_diff "ABC" "ABD"
    = ("AB" +:+ INVERT +:+ "C" +:+ RESET, "AB" +:+ INVERT +:+ "D" +:+ RESET)
  ∧ highlight_diff "AB" "ABC" = ("AB", "AB" +:+ INVERT +:+ "C" +:+ RESET).
Proof.
  split; [|split; reflexivity].
  intros old_str new_str.
  by rewrite highlight_diff_mark, !mark_positions_mark.
Qed.

(** C8: on two equal strings [highlight_diff] returns them as they
    are. *)
Theorem highlight_diff_same s : highlight_diff s s = (s, s).
Proof. unfold highlight_diff. by rewrite String.eqb_refl. Qed.

(** C9 as stated fails: an input that itself carries a marker loses it
    when the markers are deleted from the output. *)
Lemma strip_roundtrip_counterexample :
  ¬ (∀ old_str new_str,
       strip_markers (highlight_diff old_str new_str).1 = old_str
       ∧ strip_markers (highlight_diff old_str new_str).2 = new_str).
Proof.
  intros H. destruct (H (INVERT +:+ "A") (INVERT +:+ "B")) as [H1 _].
  vm_compute in H1. discriminate H1.
Qed.

(** C9, amended: when neither input contains [INVERT] or [RESET], deleting
    the markers from the two outputs of [highlight_diff] gives back the
    two inputs. *)
Theorem strip_roundtrip old_str new_str :
  marker_free old_str = true →
  marker_free new_str = true →
  strip_markers (highlight_diff old_str new_str).1 = old_str
  ∧ strip_markers (highlight_diff old_str new_str).2 = new_str.
Proof.
  intros Hold Hnew. rewrite highlight_diff_mark. simpl.
  split; by apply strip_mark.
Qed.

Lemma strip_roundtrip_witness :
  marker_free "1A2B" = true
  ∧ marker_free "1A3B07" = true
  ∧ strip_markers (highlight_diff "1A2B" "1A3B07").1 = "1A2B"
  ∧ strip_markers (highlight_diff "1A2B" "1A3B07").2 = "1A3B07".
Proof.
  split; [reflexivity|]. split; [reflexivity|].
  apply (strip_roundtrip "1A2B" "1A3B07"); reflexivity.
Defined.

End Highlight.

(** * Properties of the tracker *)

Section Tracker.

Implicit Types self t : S21CommandTracker.
Implicit Types command value direction dump : string.
Implicit Types timestamp : datetime.
Implicit Types calls : list Call.

Lemma update_command_commands t command value direction timestamp dump :
  commands (update_command t command value direction timestamp dump).2
  = <[command := mkCommandState value direction timestamp dump]> (commands t).
Proof.
  unfold update_command. by destruct (classify _ _ _ _ _) as [[[[? ?] ?] ?] ?].
Qed.

Lemma update_command_new t command value direction timestamp dump :
  commands t !! command = None →
  update_command t command value direction timestamp dump
  = (true,
     {| commands :=
          <[command := mkCommandState value direction timestamp dump]>
            (commands t);
        recent_changes := recent_changes t |}).
Proof. intros H. unfold update_command, classify. by rewrite H. Qed.

Lemma update_command_tracked t command value direction timestamp dump st :
  commands t !! command = Some st →
  update_command t command value direction timestamp dump
  = (Py.neq (st_value st) value || Py.neq (st_dump st) dump
       || Py.neq (st_direction st) direction,
     {| commands :=
          <[command := mkCommandState value direction timestamp dump]>
            (commands t);
        recent_changes :=
          if Py.neq (st_value st) value || Py.neq (st_dump st) dump
          then append_bounded (recent_changes t)
                 (change_record st command value direction timestamp dump)
          else recent_changes t |}).
Proof.
  intros H. unfold update_command, classify, change_record. rewrite H.
  cbv zeta.
  by destruct (Py.neq (st_value st) value), (Py.neq (st_dump st) dump),
    (Py.neq (st_direction st) direction).
Qed.

Lemma run_snoc calls c t : run (calls ++ [c]) t = (apply_call (run calls t) c).2.
Proof. unfold run. by rewrite fold_left_app. Qed.

Lemma last_call_snoc command calls c :
  last_call command (calls ++ [c])
  = if String.eqb (call_command c) command then Some c
    else last_call command calls.
Proof. unfold last_call. by rewrite rev_app_distr. Qed.

Lemma last_call_is_Some command calls :
  is_Some (last_call command calls) ↔ command ∈ call_command <$> calls.
Proof.
  induction calls as [|c calls IH] using rev_ind.
  - split; [by intros [? ?] | by intros ?%elem_of_nil].
  - rewrite last_call_snoc, fmap_app, elem_of_app, <- IH.
    destruct (String.eqb_spec (call_command c) command) as [<-|Hne].
    + split; [intros _; right; by left | by eexists].
    + split; [by left | intros [?|?%list_elem_of_singleton]; congruence].
Qed.

Lemma run_lookup calls command :
  commands (run calls init) !! command
  = call_state <$> last_call command calls.
Proof.
  induction calls as [|c calls IH] using rev_ind; [done|].
  rewrite run_snoc, last_call_snoc. unfold apply_call.
  rewrite update_command_commands, lookup_insert.
  destruct (String.eqb_spec (call_command c) command) as [->|Hne].
  - by rewrite decide_True.
  - by rewrite decide_False.
Qed.

Lemma run_keys calls :
  (map_to_list (commands (run calls init))).*1
  ≡ₚ remove_dups (call_command <$> calls).
Proof.
  apply NoDup_Permutation.
  - apply NoDup_fst_map_to_list.
  - apply NoDup_remove_dups.
  - intros command. rewrite elem_of_remove_dups, <- last_call_is_Some.
    rewrite list_elem_of_fmap. split.
    + intros [[k st] [-> Hin%elem_of_map_to_list]]. simpl.
      rewrite run_lookup in Hin. by destruct (last_call k calls).
    + intros [c Hc]. exists (command, call_state c). split; [done|].
      apply elem_of_map_to_list. by rewrite run_lookup, Hc.
Qed.

(** C1: after any sequence of calls on a fresh tracker, looking up a
    command gives the state written by the most recent call for that
    command (value, direction, timestamp and dump as passed, whatever
    strings they are) and nothing for a command never seen; the keys of the
    mapping are the distinct commands seen, each once. *)
Theorem update_command_last_write_wins calls :
  (∀ command,
     commands (run calls init) !! command
     = call_state <$> last_call command calls)
  ∧ (map_to_list (commands (run calls init))).*1
    ≡ₚ remove_dups (call_command <$> calls).
Proof. split; [intros; apply run_lookup | apply run_keys]. Qed.

Lemma append_bounded_length history r :
  length history ≤ 5 → length (append_bounded history r) ≤ 5.
Proof.
  intros H. unfold append_bounded.
  destruct (Nat.ltb_spec 5 (length (history ++ [r]))) as [Hlt|Hge]; [|done].
  destruct history as [|oldest rest]; simpl in *; [lia|].
  rewrite length_app. simpl. lia.
Qed.

Lemma append_bounded_room history r :
  length history < 5 → append_bounded history r = history ++ [r].
Proof.
  intros H. unfold append_bounded.
  destruct (Nat.ltb_spec 5 (length (history ++ [r]))) as [Hlt|Hge]; [|done].
  rewrite length_app in Hlt. simpl in Hlt. lia.
Qed.

Lemma append_bounded_full oldest rest r :
  length (oldest :: rest) = 5 →
  append_bounded (oldest :: rest) r = rest ++ [r].
Proof.
  intros H. unfold append_bounded.
  destruct (Nat.ltb_spec 5 (length ((oldest :: rest) ++ [r]))) as [Hlt|Hge];
    [done|].
  rewrite length_app in Hge. simpl in *. lia.
Qed.

Lemma elem_of_append_bounded x history r :
  x ∈ append_bounded history r → x ∈ history ∨ x = r.
Proof.
  unfold append_bounded. intros H.
  assert (x ∈ history ++ [r]) as Hin.
  { destruct (5 <? length (history ++ [r])); [|done].
    destruct (history ++ [r]); [done | by right]. }
  apply elem_of_app in Hin as [?|?%list_elem_of_singleton]; auto.
Qed.

Lemma run_history_length calls : length (recent_changes (run calls init)) ≤ 5.
Proof.
  induction calls as [|c calls IH] using rev_ind; [simpl; lia|].
  rewrite run_snoc. unfold apply_call.
  destruct (commands (run calls init) !! call_command c) as [st|] eqn:Hst.
  - rewrite (update_command_tracked _ _ _ _ _ _ st Hst). simpl.
    destruct (_ || _); [by apply append_bounded_length | done].
  - by rewrite (update_command_new _ _ _ _ _ _ Hst).
Qed.

Lemma changed_flags st value dump :
  st_value st ≠ value ∨ st_dump st ≠ dump →
  Py.neq (st_value st) value || Py.neq (st_dump st) dump = true.
Proof.
  intros [H|H]; apply orb_true_iff; [left | right]; by apply neq_true_iff.
Qed.

(** C2: on a tracker reached from a fresh one the history holds at most
    five records; a change-worthy update (the command is tracked and its
    value or dump differs) appends its record at the end, and when the
    history already holds five records the oldest one is dropped and the
    other four keep their order in front of the new record. *)
Theorem recent_changes_bounded_fifo calls :
  length (recent_changes (run calls init)) ≤ 5
  ∧ ∀ command value direction timestamp dump st,
      commands (run calls init) !! command = Some st →
      st_value st ≠ value ∨ st_dump st ≠ dump →
      let history := recent_changes (run calls init) in
      let history' :=
        recent_changes
          (update_command (run calls init)
             command value direction timestamp dump).2 in
      let r := change_record st command value direction timestamp dump in
      (length history < 5 → history' = history ++ [r])
      ∧ (length history = 5 →
         ∃ oldest rest, history = oldest :: rest ∧ history' = rest ++ [r]).
Proof.
  split; [apply run_history_length|].
  intros command value direction timestamp dump st Hst Hdiff.
  rewrite (update_command_tracked _ _ _ _ _ _ st Hst). simpl.
  rewrite (changed_flags _ _ _ Hdiff). split.
  - apply append_bounded_room.
  - intros Hlen.
    destruct (recent_changes (run calls init)) as [|oldest rest] eqn:Hh;
      [done|].
    exists oldest, rest. split; [done|]. by apply append_bounded_full.
Qed.

Lemma run_history_origin calls r :
  r ∈ recent_changes (run calls init) →
  ∃ pre c post st,
    calls = pre ++ c :: post
    ∧ commands (run pre init) !! call_command c = Some st
    ∧ r = change_record st (call_command c) (call_value c)
            (call_direction c) (call_timestamp c) (call_dump c)
    ∧ (st_value st ≠ call_value c ∨ st_dump st ≠ call_dump c).
Proof.
  induction calls as [|c calls IH] using rev_ind; [by intros ?%elem_of_nil|].
  assert (r ∈ recent_changes (run calls init) →
    ∃ pre c0 post st,
      calls ++ [c] = pre ++ c0 :: post
      ∧ commands (run pre init) !! call_command c0 = Some st
      ∧ r = change_record st (call_command c0) (call_value c0)
              (call_direction c0) (call_timestamp c0) (call_dump c0)
      ∧ (st_value st ≠ call_value c0 ∨ st_dump st ≠ call_dump c0)) as Hold.
  { intros (pre & c0 & post & st & -> & ? & ? & ?)%IH.
    exists pre, c0, (post ++ [c]), st. by rewrite <- app_assoc. }
  rewrite run_snoc. unfold apply_call.
  destruct (commands (run calls init) !! call_command c) as [st|] eqn:Hst.
  - rewrite (update_command_tracked _ _ _ _ _ _ st Hst). simpl.
    destruct (_ || _) eqn:Hflags; [|done].
    intros [?| ->]%elem_of_append_bounded; [auto|].
    exists calls, c, [], st. repeat split; [done|].
    apply orb_true_iff in Hflags as [?%neq_true_iff|?%neq_true_iff]; auto.
  - by rewrite (update_command_new _ _ _ _ _ _ Hst).
Qed.

(** C3: an update for a command that is not in the mapping returns true
    and leaves the history as it was; so every record in the history of a
    tracker reached from a fresh one comes from a call made when its command
    already had a stored state, holds that state's value and dump as the
    old ones and the call's arguments as the new ones, and the value or
    the dump differs between the two. *)
Theorem first_seen_appends_nothing :
  (∀ t command value direction timestamp dump,
     commands t !! command = None →
     (update_command t command value direction timestamp dump).1 = true
     ∧ recent_changes
         (update_command t command value direction timestamp dump).2
       = recent_changes t)
  ∧ (∀ calls r,
       r ∈ recent_changes (run calls init) →
       ∃ pre c post st,
         calls = pre ++ c :: post
         ∧ commands (run pre init) !! call_command c = Some st
         ∧ r = change_record st (call_command c) (call_value c)
                 (call_direction c) (call_timestamp c) (call_dump c)
         ∧ (st_value st ≠ call_value c ∨ st_dump st ≠ call_dump c)).
Proof.
  split; [|apply run_history_origin].
  intros t command value direction timestamp dump Hnew.
  by rewrite (update_command_new _ _ _ _ _ _ Hnew).
Qed.

Lemma neq_refl a : Py.neq a a = false.
Proof. unfold Py.neq. by rewrite String.eqb_refl. Qed.

(** C4: for a tracked command, an update that repeats the stored value
    and dump with another direction returns true, stores the new
    direction and timestamp, and leaves the history as it was. *)
Theorem direction_only_change t command st direction timestamp :
  commands t !! command = Some st →
  direction ≠ st_direction st →
  update_command t command (st_value st) direction timestamp (st_dump st)
  = (true,
     {| commands :=
          <[command := {| st_value := st_value st;
                          st_direction := direction;
                          st_timestamp := timestamp;
                          st_dump := st_dump st |}]> (commands t);
        recent_changes := recent_changes t |}).
Proof.
  intros Hst Hdir. rewrite (update_command_tracked _ _ _ _ _ _ st Hst).
  rewrite !neq_refl. simpl.
  by rewrite (proj2 (neq_true_iff (st_direction st) direction)).
Qed.

(** C5: for a tracked command, an update that repeats the stored value,
    dump and direction returns false; the new tracker differs from the old
    one only in the timestamp stored for that command: the history is the
    same and every other command keeps its state. *)
Theorem noop_update_frame t command st timestamp :
  commands t !! command = Some st →
  let res :=
    update_command t command (st_value st) (st_direction st) timestamp
      (st_dump st) in
  res.1 = false
  ∧ recent_changes res.2 = recent_changes t
  ∧ commands res.2 !! command
    = Some {| st_value := st_value st; st_direction := st_direction st;
              st_timestamp := timestamp; st_dump := st_dump st |}
  ∧ (∀ other, other ≠ command →
       commands res.2 !! other = commands t !! other)
  ∧ dom (commands res.2) = dom (commands t).
Proof.
  intros Hst. rewrite (update_command_tracked _ _ _ _ _ _ st Hst).
  rewrite !neq_refl. simpl. repeat split.
  - by rewrite lookup_insert_eq.
  - intros other Hne. by rewrite lookup_insert_ne.
  - by apply dom_insert_lookup_L.
Qed.

#[local] Instance items_le_total : Total items_le.
Proof. intros x y. unfold items_le. apply total, _. Qed.

#[local] Instance items_le_trans : Transitive items_le.
Proof. intros x y z. unfold items_le. apply transitivity. Qed.

Lemma string_le_neq_lt k1 k2 :
  String.le k1 k2 → k1 ≠ k2 → String.ltb k1 k2 = true.
Proof.
  unfold String.le, String.leb, String.ltb. intros Hle Hne.
  destruct (String.compare k1 k2) eqn:Hc; [|done|done].
  by apply String.compare_eq_iff in Hc.
Qed.

Lemma sorted_distinct_keys (l : list (string * CommandState)) :
  StronglySorted items_le l → NoDup l.*1 → StronglySorted items_lt l.
Proof.
  induction 1 as [|x l Hl IH Hx]; intros Hnd; [constructor|].
  apply NoDup_cons in Hnd as [Hnotin Hnd]. constructor; [by apply IH|].
  apply Forall_forall. intros y Hy.
  apply string_le_neq_lt.
  - by eapply Forall_forall in Hx.
  - intros Heq. apply Hnotin. rewrite Heq. by apply list_elem_of_fmap_2.
Qed.

Lemma get_sorted_commands_perm t :
  get_sorted_commands t ≡ₚ map_to_list (commands t).
Proof. apply merge_sort_Permutation. Qed.

Lemma elem_of_get_sorted_commands t command st :
  (command, st) ∈ get_sorted_commands t ↔ commands t !! command = Some st.
Proof.
  rewrite get_sorted_commands_perm. apply elem_of_map_to_list.
Qed.

(** C6: the list returned by [get_sorted_commands] is a rearrangement of
    the items of the current mapping, holding exactly the tracked
    (command, state) pairs, in strictly ascending lexicographic order of
    the command; being computed from the current mapping, right after an
    update it holds the pair that update wrote. *)
Theorem get_sorted_commands_sorted t :
  get_sorted_commands t ≡ₚ map_to_list (commands t)
  ∧ (∀ command st,
       (command, st) ∈ get_sorted_commands t
       ↔ commands t !! command = Some st)
  ∧ StronglySorted items_lt (get_sorted_commands t)
  ∧ ∀ command value direction timestamp dump,
      (command, mkCommandState value direction timestamp dump)
      ∈ get_sorted_commands
          (update_command t command value direction timestamp dump).2.
Proof.
  split; [apply get_sorted_commands_perm|].
  split; [apply elem_of_get_sorted_commands|]. split.
  - apply sorted_distinct_keys.
    + apply StronglySorted_merge_sort; apply _.
    + rewrite get_sorted_commands_perm. apply NoDup_fst_map_to_list.
  - intros. apply elem_of_get_sorted_commands.
    by rewrite update_command_commands, lookup_insert_eq.
Qed.

(** *** The claims at sample inputs *)

Lemma recent_changes_bounded_fifo_witness :
  ∃ oldest rest,
    recent_changes (run sample_calls init) = oldest :: rest
    ∧ recent_changes
        (update_command (run sample_calls init) "D1" "06" "RX" 7%Z "").2
      = rest ++ [change_record sample_state "D1" "06" "RX" 7%Z ""].
Proof.
  destruct (recent_changes_bounded_fifo sample_calls) as [_ H].
  apply (H "D1" "06" "RX" 7%Z "" sample_state).
  - vm_compute. reflexivity.
  - left. discriminate.
  - vm_compute. reflexivity.
Defined.

Lemma first_seen_appends_nothing_witness :
  ((update_command init "D1" "00" "RX" 1%Z "").1 = true
   ∧ recent_changes (update_command init "D1" "00" "RX" 1%Z "").2 = [])
  ∧ ∃ pre c post st,
      take 2 sample_calls = pre ++ c :: post
      ∧ commands (run pre init) !! call_command c = Some st
      ∧ mkChangeRecord "D1" "00" "01" "" "" "RX" 2%Z true false
        = change_record st (call_command c) (call_value c)
            (call_direction c) (call_timestamp c) (call_dump c)
      ∧ (st_value st ≠ call_value c ∨ st_dump st ≠ call_dump c).
Proof.
  destruct first_seen_appends_nothing as [Hnew Horigin]. split.
  - apply (Hnew init "D1" "00" "RX" 1%Z ""). reflexivity.
  - apply (Horigin (take 2 sample_calls)).
    vm_compute. apply list_elem_of_here.
Defined.

Lemma direction_only_change_witness :
  commands (run sample_calls init) !! "D1" = Some sample_state
  ∧ update_command (run sample_calls init) "D1" "05" "TX" 7%Z ""
    = (true,
       {| commands :=
            <["D1" := mkCommandState "05" "TX" 7%Z ""]>
              (commands (run sample_calls init));
          recent_changes := recent_changes (run sample_calls init) |}).
Proof.
  assert (commands (run sample_calls init) !! "D1" = Some sample_state)
    as Hst by (vm_compute; reflexivity).
  split; [exact Hst|].
  apply (direction_only_change (run sample_calls init) "D1" sample_state
           "TX" 7%Z Hst).
  discriminate.
Defined.

Lemma noop_update_frame_witness :
  let res := update_command (run sample_calls init) "D1" "05" "RX" 7%Z "" in
  res.1 = false
  ∧ recent_changes res.2 = recent_changes (run sample_calls init)
  ∧ commands res.2 !! "D1" = Some (mkCommandState "05" "RX" 7%Z "")
  ∧ (∀ other, other ≠ "D1" →
       commands res.2 !! other = commands (run sample_calls init) !! other)
  ∧ dom (commands res.2) = dom (commands (run sample_calls init)).
Proof.
  apply (noop_update_frame (run sample_calls init) "D1" sample_state 7%Z).
  vm_compute. reflexivity.
Defined.

End Tracker.

(** * [truncate_value] *)

Section Truncate.

Local Open Scope Z_scope.

Lemma substring_0_length n s :
  String.length (String.substring 0 n s) = Nat.min n (String.length s).
Proof.
  revert s. induction n as [|n IH]; intros [|a s]; simpl; auto.
Qed.

(** C10: with [max_length >= 3], a value no longer than [max_length]
    comes back unchanged, and a longer one comes back as its first
    [max_length - 3] characters followed by three dots, [max_length]
    characters in all; with [max_length < 3], a value longer than
    [max_length] gives a result longer than [max_length]. *)
Theorem truncate_value_spec value max_length :
  (3 ≤ max_length →
     (Z.of_nat (String.length value) ≤ max_length →
      truncate_value value max_length = value)
     ∧ (max_length < Z.of_nat (String.length value) →
        truncate_value value max_length
        = String.substring 0 (Z.to_nat (max_length - 3)) value +:+ "..."
        ∧ Z.of_nat (String.length (truncate_value value max_length))
          = max_length))
  ∧ (max_length < 3 →
     max_length < Z.of_nat (String.length value) →
     max_length < Z.of_nat (String.length (truncate_value value max_length))).
Proof.
  unfold truncate_value, Py.slice_to. split.
  - intros Hmax. split; intros Hlen.
    + by rewrite Z.gtb_ltb, (proj2 (Z.ltb_ge _ _)).
    + rewrite Z.gtb_ltb, (proj2 (Z.ltb_lt _ _)) by done.
      rewrite (proj2 (Z.leb_le 0 (max_length - 3))) by lia.
      split; [done|].
      rewrite string_app_length, substring_0_length. simpl. lia.
  - intros Hmax Hlen.
    rewrite Z.gtb_ltb, (proj2 (Z.ltb_lt _ _)) by done.
    destruct (0 <=? max_length - 3); rewrite string_app_length; simpl; lia.
Qed.

Lemma truncate_value_spec_witness :
  truncate_value "0123456789" 10 = "0123456789"
  ∧ truncate_value "0123456789" 8 = "01234..."
  ∧ 2 < Z.of_nat (String.length (truncate_value "abcd" 2)).
Proof.
  destruct (truncate_value_spec "0123456789" 10) as [H10 _].
  destruct (truncate_value_spec "0123456789" 8) as [H8 _].
  destruct (truncate_value_spec "abcd" 2) as [_ H2].
  split; [apply H10; [discriminate | discriminate]|].
  split; [apply H8; reflexivity || discriminate|].
  apply H2; reflexivity.
Defined.

End Truncate.

(** * Further properties of the highlighter *)

Section HighlightMore.

Implicit Types s t other old_str new_str : string.

(** X1: Exchanging the two arguments of [highlight_diff] exchanges its two
    results. *)
Theorem highlight_diff_swap old_str new_str :
  highlight_diff new_str old_str
  = ((highlight_diff old_str new_str).2, (highlight_diff old_str new_str).1).
Proof. by rewrite !highlight_diff_mark. Qed.

Lemma mark_common_prefix p s other :
  mark (p +:+ s) (p +:+ other) = p +:+ mark s other.
Proof.
  induction p as [|a p IH]; [done|].
  rewrite !string_app_cons. simpl. by rewrite Ascii.eqb_refl, IH.
Qed.

(** X2: A prefix shared by the two strings comes out unmarked in both
    results, followed by the highlighting of the two remainders. *)
Theorem highlight_diff_common_prefix p old_str new_str :
  highlight_diff (p +:+ old_str) (p +:+ new_str)
  = (p +:+ (highlight_diff old_str new_str).1,
     p +:+ (highlight_diff old_str new_str).2).
Proof. by rewrite !highlight_diff_mark, !mark_common_prefix. Qed.

Lemma mark_against_nothing t : mark t "" = wrap_each t.
Proof.
  unfold wrap_each. induction t as [|a t IH]; [done|].
  simpl. by rewrite join_cons, wrap_app, IH.
Qed.

Lemma mark_nothing other : mark "" other = "".
Proof. done. Qed.

(** X3: When the new string is the old one with text appended, the old string
    comes out unmarked and the new one as the old string followed by the
    appended characters, each wrapped on its own. *)
Theorem highlight_diff_appended s t :
  highlight_diff s (s +:+ t) = (s, s +:+ wrap_each t).
Proof.
  rewrite highlight_diff_mark.
  pose proof (mark_common_prefix s "" t) as H1.
  pose proof (mark_common_prefix s t "") as H2.
  rewrite string_app_nil_r in H1, H2.
  by rewrite H1, H2, mark_against_nothing, mark_nothing, string_app_nil_r.
Qed.

Lemma contains_INVERT_head rest : contains INVERT (INVERT +:+ rest) = true.
Proof. by destruct rest. Qed.

Lemma contains_later m a s : contains m s = true → contains m (String a s) = true.
Proof. simpl. intros ->. apply orb_true_r. Qed.

Lemma mark_differs s : ∀ other,
  s ≠ other →
  contains INVERT (mark s other) = true
  ∨ contains INVERT (mark other s) = true.
Proof.
  induction s as [|a s IH]; intros [|b other] Hne; [done| | |].
  - right. apply contains_INVERT_head.
  - left. apply contains_INVERT_head.
  - simpl. rewrite (Ascii.eqb_sym b a).
    destruct (Ascii.eqb_spec a b) as [->|Hab].
    + destruct (IH other) as [H|H]; [congruence | |];
        [left | right]; by apply contains_later.
    + left. apply contains_INVERT_head.
Qed.

(** X4: Two different strings never come out both unmarked: at least one of
    the two results contains the [INVERT] marker. *)
Theorem highlight_diff_marks_a_difference old_str new_str :
  old_str ≠ new_str →
  contains INVERT (highlight_diff old_str new_str).1 = true
  ∨ contains INVERT (highlight_diff old_str new_str).2 = true.
Proof. intros Hne. rewrite highlight_diff_mark. by apply mark_differs. Qed.

Lemma highlight_diff_marks_a_difference_witness :
  contains INVERT (highlight_diff "00" "01").1 = true
  ∨ contains INVERT (highlight_diff "00" "01").2 = true.
Proof. apply (highlight_diff_marks_a_difference "00" "01"). discriminate. Defined.

Lemma mark_length s : ∀ other,
  String.length s ≤ String.length (mark s other)
  ∧ String.length (mark s other) ≤ 9 * String.length s.
Proof.
  induction s as [|a s IH]; intros other; [simpl; lia|].
  assert (∀ other',
    String.length (INVERT +:+ String a (RESET +:+ mark s other'))
    = 9 + String.length (mark s other')) as Hwrap by done.
  simpl. destruct other as [|b other].
  - rewrite Hwrap. destruct (IH ""). lia.
  - destruct (Ascii.eqb a b).
    + simpl. destruct (IH other). lia.
    + rewrite Hwrap. destruct (IH other). lia.
Qed.

(** X5: Each result of [highlight_diff] is at least as long as its input and
    at most nine times as long: a character is kept as it is or grows by
    the eight characters of the two markers. *)
Theorem highlight_diff_length old_str new_str :
  String.length old_str ≤ String.length (highlight_diff old_str new_str).1
  ∧ String.length (highlight_diff old_str new_str).1 ≤ 9 * String.length old_str
  ∧ String.length new_str ≤ String.length (highlight_diff old_str new_str).2
  ∧ String.length (highlight_diff old_str new_str).2 ≤ 9 * String.length new_str.
Proof.
  rewrite highlight_diff_mark. simpl.
  destruct (mark_length old_str new_str), (mark_length new_str old_str). auto.
Qed.

End HighlightMore.

(** * Further properties of the tracker *)

Section TrackerMore.

Implicit Types self t : S21CommandTracker.
Implicit Types command value direction dump : string.
Implicit Types timestamp : datetime.
Implicit Types calls : list Call.

Lemma neq_false_iff a b : Py.neq a b = false ↔ a = b.
Proof.
  unfold Py.neq. destruct (String.eqb_spec a b); simpl; split; congruence.
Qed.

(** X6: [update_command] returns false exactly when the command is already
    tracked with the same value, dump and direction; in every other case,
    a new command included, it returns true. *)
Theorem update_command_false_iff t command value direction timestamp dump :
  (update_command t command value direction timestamp dump).1 = false
  ↔ ∃ st, commands t !! command = Some st
          ∧ st_value st = value ∧ st_dump st = dump
          ∧ st_direction st = direction.
Proof.
  destruct (commands t !! command) as [st|] eqn:Hst.
  - rewrite (update_command_tracked _ _ _ _ _ _ st Hst). simpl.
    rewrite !orb_false_iff, !neq_false_iff. split.
    + intros [[? ?] ?]. by exists st.
    + intros (st' & ? & ? & ? & ?). by simplify_eq.
  - rewrite (update_command_new _ _ _ _ _ _ Hst). simpl.
    split; [done | by intros (? & ? & _)].
Qed.

(** X7: No update removes a command or touches the state of another one: the
    mapping grows by exactly the updated command when it is new and keeps
    its size otherwise. *)
Theorem update_command_frame t command value direction timestamp dump :
  let t' := (update_command t command value direction timestamp dump).2 in
  (∀ other, other ≠ command → commands t' !! other = commands t !! other)
  ∧ dom (commands t') = {[command]} ∪ dom (commands t)
  ∧ size (commands t')
    = if commands t !! command is Some _ then size (commands t)
      else S (size (commands t)).
Proof.
  cbv zeta. rewrite update_command_commands. split; [|split].
  - intros other Hne. by rewrite lookup_insert_ne.
  - apply dom_insert_L.
  - destruct (commands t !! command) as [st|] eqn:Hst.
    + rewrite <- !size_dom, dom_insert_lookup_L; [done | by eexists].
    + by apply map_size_insert_None.
Qed.

Lemma change_log_snoc calls c :
  change_log (calls ++ [c]) = change_log calls ++ change_of (run calls init) c.
Proof.
  unfold change_log. rewrite imap_app. simpl.
  rewrite Nat.add_0_r, take_app_length.
  rewrite join_app. simpl. rewrite app_nil_r. f_equal. f_equal.
  apply imap_ext. intros i x Hi. simpl.
  rewrite take_app_le; [done|]. apply lookup_lt_Some in Hi. lia.
Qed.

Lemma update_command_history t c :
  recent_changes (apply_call t c).2
  = match change_of t c with
    | [] => recent_changes t
    | r :: _ => append_bounded (recent_changes t) r
    end.
Proof.
  unfold apply_call, change_of.
  destruct (commands t !! call_command c) as [st|] eqn:Hst.
  - rewrite (update_command_tracked _ _ _ _ _ _ st Hst). simpl.
    destruct (Py.neq (st_value st) (call_value c)) eqn:Hv,
      (Py.neq (st_dump st) (call_dump c)) eqn:Hd; simpl;
      try (rewrite bool_decide_true; [done|]);
      try (left; by apply neq_true_iff);
      try (right; by apply neq_true_iff).
    apply neq_false_iff in Hv, Hd.
    rewrite bool_decide_false; [done|]. intros [?|?]; congruence.
  - by rewrite (update_command_new _ _ _ _ _ _ Hst).
Qed.

Lemma slice_last_snoc (l : list ChangeRecord) r :
  append_bounded (slice_last 5 l) r = slice_last 5 (l ++ [r]).
Proof.
  unfold slice_last. rewrite length_app.
  change (length [r]) with 1.
  destruct (decide (length l < 5)) as [Hlt|Hge].
  - replace (length l - 5) with 0 by lia.
    replace (length l + 1 - 5) with 0 by lia. rewrite !drop_0.
    by apply append_bounded_room.
  - replace (length l + 1 - 5) with (S (length l - 5)) by lia.
    rewrite drop_app_le by lia.
    destruct (drop (length l - 5) l) as [|x rest] eqn:Hdrop.
    + apply (f_equal length) in Hdrop. rewrite length_drop in Hdrop.
      simpl in Hdrop. lia.
    + assert (drop (S (length l - 5)) l = rest) as ->.
      { replace (S (length l - 5)) with ((length l - 5) + 1) by lia.
        by rewrite <- drop_drop, Hdrop. }
      apply append_bounded_full. rewrite <- Hdrop, length_drop. lia.
Qed.

(** X8: The history after a sequence of calls on a fresh tracker is the last
    five change-worthy updates of the sequence in arrival order, or all of
    them when there are fewer. *)
Theorem recent_changes_last_five calls :
  recent_changes (run calls init) = slice_last 5 (change_log calls).
Proof.
  induction calls as [|c calls IH] using rev_ind; [done|].
  rewrite run_snoc, change_log_snoc, update_command_history.
  unfold change_of.
  destruct (commands (run calls init) !! call_command c) as [st|];
    [|by rewrite app_nil_r].
  case_bool_decide; [|by rewrite app_nil_r].
  by rewrite IH, slice_last_snoc.
Qed.

(** X9: The slice [recent_changes[-5:]] that [update_display] iterates over
    is the whole history. *)
Theorem display_slice_is_history calls :
  slice_last 5 (recent_changes (run calls init))
  = recent_changes (run calls init).
Proof.
  unfold slice_last. pose proof (run_history_length calls).
  replace (length (recent_changes (run calls init)) - 5) with 0 by lia.
  apply drop_0.
Qed.



End TrackerMore.

(** * Further properties of [truncate_value] and of the table rows *)

Section TruncateMore.

Lemma truncate_value_length_le value (max_length : Z) :
  (3 ≤ max_length)%Z →
  (Z.of_nat (String.length (truncate_value value max_length)) ≤ max_length)%Z.
Proof.
  intros Hmax. unfold truncate_value, Py.slice_to.
  rewrite Z.gtb_ltb.
  destruct (Z.ltb_spec max_length (Z.of_nat (String.length value))); [|done].
  rewrite (proj2 (Z.leb_le 0 (max_length - 3))) by lia.
  rewrite string_app_length, substring_0_length. simpl. lia.
Qed.

(** X11: With [max_length >= 3], truncating an already truncated value
    changes nothing. *)
Theorem truncate_value_idempotent value (max_length : Z) :
  (3 ≤ max_length)%Z →
  truncate_value (truncate_value value max_length) max_length
  = truncate_value value max_length.
Proof.
  intros Hmax. pose proof (truncate_value_length_le value max_length Hmax).
  unfold truncate_value at 1.
  by rewrite Z.gtb_ltb, (proj2 (Z.ltb_ge _ _)).
Qed.

Lemma truncate_value_idempotent_witness :
  truncate_value (truncate_value "0123456789" 8) 8
  = truncate_value "0123456789" 8.
Proof. apply (truncate_value_idempotent "0123456789" 8). discriminate. Defined.

(** X12: With [max_length < 3] the slice bound [max_length - 3] is negative and
    counts from the end: a value longer than [max_length] loses its last
    [3 - max_length] characters before the dots are added, so the result
    has [len(value) + max_length] characters, and never fewer than 3. *)
Theorem truncate_value_small_bound value (max_length : Z) :
  (max_length < 3)%Z →
  (max_length < Z.of_nat (String.length value))%Z →
  truncate_value value max_length
  = String.substring 0
      (String.length value - Z.to_nat (3 - max_length)) value +:+ "..."
  ∧ Z.of_nat (String.length (truncate_value value max_length))
    = Z.max 3 (Z.of_nat (String.length value) + max_length).
Proof.
  intros Hmax Hlen. unfold truncate_value, Py.slice_to.
  rewrite Z.gtb_ltb, (proj2 (Z.ltb_lt _ _)) by done.
  rewrite (proj2 (Z.leb_gt 0 (max_length - 3))) by lia.
  replace (Z.to_nat (Z.of_nat (String.length value) + (max_length - 3)))
    with (String.length value - Z.to_nat (3 - max_length)) by lia.
  split; [done|].
  rewrite string_app_length, substring_0_length. simpl. lia.
Qed.

Lemma truncate_value_small_bound_witness :
  truncate_value "abcd" 2 = "abc..."
  ∧ Z.of_nat (String.length (truncate_value "abcd" 2)) = 6%Z.
Proof. apply (truncate_value_small_bound "abcd" 2); reflexivity. Defined.

Lemma string_of_list_ascii_length l :
  String.length (String.string_of_list_ascii l) = length l.
Proof. induction l as [|a l IH]; simpl; [done | by rewrite IH]. Qed.

Lemma ljust_length w s :
  String.length (ljust w s) = Nat.max w (String.length s).
Proof.
  unfold ljust.
  rewrite string_app_length, string_of_list_ascii_length, length_replicate.
  lia.
Qed.

(** X13: Whatever the lengths of the value and of the dump, a table row whose
    command, direction and time fit their columns (8, 4 and 10 characters)
    is 71 characters long: the value and the dump are cut to 18 and 23
    characters before being padded to 20 and 25. *)
Theorem table_row_length command data timestamp_text :
  String.length command ≤ 8 →
  String.length (st_direction data) ≤ 4 →
  String.length timestamp_text ≤ 10 →
  String.length (table_row command data timestamp_text) = 71.
Proof.
  intros Hc Hd Ht. unfold table_row.
  pose proof (truncate_value_length_le (st_value data) 18).
  pose proof (truncate_value_length_le (st_dump data) 23).
  rewrite !string_app_length, !ljust_length. simpl. lia.
Qed.

Lemma table_row_length_witness :
  String.length
    (table_row "D1"
       (mkCommandState "30313233343536373839414243444546" "RX" 1%Z "")
       "12:00:00") = 71.
Proof.
  apply (table_row_length "D1"
    (mkCommandState "30313233343536373839414243444546" "RX" 1%Z ""));
    simpl; lia.
Defined.

End TruncateMore.

(** * Properties of [S21Parser.to_hex_string] *)

Section Hex.

Lemma format_02X_ord_facts c :
  String.length (format_02X (ord c)) = 2
  ∧ hex_string (format_02X (ord c)) = true
  ∧ from_hex_string (format_02X (ord c)) = String c "".
Proof. destruct c as [[] [] [] [] [] [] [] []]; vm_compute; done. Qed.

Lemma format_02X_ord c :
  ∃ h l, format_02X (ord c) = String h (String l "")
         ∧ is_hex_digit h = true ∧ is_hex_digit l = true
         ∧ ascii_of_N (16 * hex_digit_value h + hex_digit_value l) = c.
Proof.
  destruct (format_02X_ord_facts c) as (Hlen & Hhex & Hback).
  destruct (format_02X (ord c)) as [|h [|l [|? ?]]]; try done.
  exists h, l. simpl in Hhex, Hback.
  apply andb_true_iff in Hhex as [Hh Hl%andb_true_iff].
  repeat split; [done | by destruct Hl | congruence].
Qed.

Lemma to_hex_string_eq value :
  to_hex_string value
  = Py.join (map (λ c, format_02X (ord c)) (String.list_ascii_of_string value)).
Proof. by destruct value. Qed.

Lemma to_hex_string_cons c value :
  to_hex_string (String c value) = format_02X (ord c) +:+ to_hex_string value.
Proof. rewrite !to_hex_string_eq. simpl. by rewrite join_cons. Qed.

Lemma to_hex_string_hex value : hex_string (to_hex_string value) = true.
Proof.
  induction value as [|c value IH]; [done|].
  rewrite to_hex_string_cons.
  destruct (format_02X_ord c) as (h & l & -> & Hh & Hl & _).
  rewrite !string_app_cons, string_app_nil_l. simpl.
  by rewrite Hh, Hl, IH.
Qed.

(** X14: A string is encoded with two upper-case hexadecimal digits for each
    of its characters. *)
Theorem to_hex_string_shape value :
  String.length (to_hex_string value) = 2 * String.length value
  ∧ hex_string (to_hex_string value) = true.
Proof.
  split; [|apply to_hex_string_hex].
  induction value as [|c value IH]; [done|].
  rewrite to_hex_string_cons.
  destruct (format_02X_ord c) as (h & l & -> & _).
  rewrite !string_app_cons, string_app_nil_l. simpl. lia.
Qed.

(** X15: The encoding loses nothing: reading the digit pairs back gives the
    string that was encoded, so two different strings have different
    encodings. *)
Theorem to_hex_string_roundtrip :
  (∀ value, from_hex_string (to_hex_string value) = value)
  ∧ (∀ v1 v2, to_hex_string v1 = to_hex_string v2 → v1 = v2).
Proof.
  assert (∀ value, from_hex_string (to_hex_string value) = value) as Hrt.
  { induction value as [|c value IH]; [done|].
    rewrite to_hex_string_cons.
    destruct (format_02X_ord c) as (h & l & -> & _ & _ & Hc).
    rewrite !string_app_cons, string_app_nil_l.
    cbn [from_hex_string]. by rewrite Hc, IH. }
  split; [done|]. intros v1 v2 Heq.
  by rewrite <- (Hrt v1), <- (Hrt v2), Heq.
Qed.

Lemma hex_digit_not_esc c : is_hex_digit c = true → c ≠ "027"%char.
Proof. by intros H ->. Qed.

Lemma hex_string_no_marker m s :
  hex_string s = true → contains (String "027" m) s = false.
Proof.
  induction s as [|c s IH]; [done|].
  intros [Hc Hs]%andb_true_iff.
  change (contains (String "027" m) (String c s))
    with ((if ascii_dec "027" c then String.prefix m s else false)
          || contains (String "027" m) s).
  rewrite (IH Hs), orb_false_r.
  destruct (ascii_dec "027" c) as [<-|]; [|done].
  by apply hex_digit_not_esc in Hc.
Qed.

Lemma hex_string_marker_free s : hex_string s = true → marker_free s = true.
Proof.
  intros H. unfold marker_free, INVERT, RESET.
  by rewrite !hex_string_no_marker.
Qed.

(** X16: Payloads encoded by [to_hex_string] never contain a highlight marker,
    so deleting the markers from what [highlight_diff] makes of two of
    them gives the two payloads back. *)
Theorem hex_payload_highlight_roundtrip v1 v2 :
  marker_free (to_hex_string v1) = true
  ∧ strip_markers (highlight_diff (to_hex_string v1) (to_hex_string v2)).1
    = to_hex_string v1
  ∧ strip_markers (highlight_diff (to_hex_string v1) (to_hex_string v2)).2
    = to_hex_string v2.
Proof.
  assert (∀ v, marker_free (to_hex_string v) = true) as Hfree.
  { intros v. apply hex_string_marker_free, to_hex_string_hex. }
  split; [done|]. rewrite highlight_diff_mark. simpl.
  split; by apply strip_mark.
Qed.

End Hex.

(** * Properties of [S21Parser.parse_s21_packet] *)

Section ParserProps.

Variable loads : string → option Json.
Variable now : nat → datetime.

Lemma truthy_or_empty value : (if Py.truthy value then value else "") = value.
Proof. by destruct value. Qed.

Lemma parse_loop data dump_data json_data : ∀ commands,
  fold_left (parse_step now data dump_data) json_data commands
  = commands
    ++ imap (λ k, packet_of now data dump_data (length commands + k))
         (filter (λ item, is_command_key item.1 = true) json_data).
Proof.
  induction json_data as [|[key value] json_data IH]; intros commands.
  - by rewrite app_nil_r.
  - cbn [fold_left parse_step]. rewrite IH, filter_cons. simpl.
    destruct (is_command_key key) eqn:Hkey.
    + rewrite decide_True by done. rewrite <- app_assoc. f_equal.
      cbn [imap app]. unfold packet_of at 2. simpl.
      rewrite truthy_or_empty, Nat.add_0_r. f_equal.
      apply imap_ext. intros k item _. simpl.
      rewrite length_app. simpl. f_equal. lia.
    + by rewrite decide_False by done.
Qed.

Lemma parse_s21_packet_object data json_data :
  data ≠ "" →
  loads data = Some (JObject json_data) →
  dict_get "protocol" json_data = Some "S21" →
  parse_s21_packet loads now data
  = imap (packet_of now data (default "" (dict_get "dump" json_data)))
      (filter (λ item, is_command_key item.1 = true) json_data).
Proof.
  intros Hdata Hloads Hproto. unfold parse_s21_packet.
  destruct data; [done|]. simpl. rewrite Hloads.
  rewrite bool_decide_true by done. by rewrite parse_loop.
Qed.

(** X17: For a non-empty payload decoded to an object whose [protocol] member
    is ["S21"], the packets are made from the members whose key is neither
    [protocol] nor [dump] and has at least two characters, in the order of
    the object: the key as command, the hexadecimal encoding of the value
    as payload, the object's [dump] member (the empty string when it has
    none) as dump, and the successive clock readings as timestamps. *)
Theorem parse_s21_packet_packets data json_data :
  data ≠ "" →
  loads data = Some (JObject json_data) →
  dict_get "protocol" json_data = Some "S21" →
  parse_s21_packet loads now data
  = imap (packet_of now data (default "" (dict_get "dump" json_data)))
      (filter (λ item, is_command_key item.1 = true) json_data).
Proof. apply parse_s21_packet_object. Qed.

(** X18: [parse_s21_packet] returns the empty list exactly when the payload is
    empty, or cannot be decoded, or decodes to something that is not an
    object, or to an object whose [protocol] member is not ["S21"], or to
    one with no command member. *)
Theorem parse_s21_packet_empty_iff data :
  parse_s21_packet loads now data = []
  ↔ data = ""
    ∨ loads data = None
    ∨ loads data = Some JOther
    ∨ ∃ json_data,
        loads data = Some (JObject json_data)
        ∧ (dict_get "protocol" json_data ≠ Some "S21"
           ∨ Forall (λ item, is_command_key item.1 = false) json_data).
Proof.
  destruct (decide (data = "")) as [->|Hdata]; [by split; [left|]|].
  destruct (loads data) as [[json_data|]|] eqn:Hloads.
  - destruct (decide (dict_get "protocol" json_data = Some "S21"))
      as [Hproto|Hproto].
    + rewrite (parse_s21_packet_object data json_data) by done.
      split.
      * intros Hnil. do 3 right. exists json_data. split; [done|]. right.
        apply Forall_forall. intros item Hin.
        destruct (is_command_key item.1) eqn:Hkey; [|done].
        assert (item ∈ filter (λ item, is_command_key item.1 = true) json_data)
          as Hf by by apply list_elem_of_filter.
        destruct (filter _ json_data); [by apply elem_of_nil in Hf|done].
      * intros [?|[?|[?|(j & [= <-] & [?|Hall])]]]; try done.
        assert (filter (λ item, is_command_key item.1 = true) json_data = [])
          as ->; [|done].
        clear -Hall. induction Hall as [|item l Hitem _ IH]; [done|].
        rewrite filter_cons, decide_False; [done | congruence].
    + unfold parse_s21_packet. destruct data; [done|]. simpl.
      rewrite Hloads, bool_decide_false by done.
      split; [|done]. intros _. do 3 right. exists json_data. auto.
  - unfold parse_s21_packet. destruct data; [done|]. simpl. rewrite Hloads.
    split; [auto | done].
  - unfold parse_s21_packet. destruct data; [done|]. simpl. rewrite Hloads.
    split; [auto | done].
Qed.

End ParserProps.

(** * Properties of [S21DebugMonitor.on_message] *)

Section Monitor.

Variable loads : string → option Json.

Implicit Types t tracker : S21CommandTracker.
Implicit Types msg : Message.
Implicit Types ps : list Packet.

(** Every call of [parse_s21_packet] on [data] maps the same command
    members to packets, whatever the clock. *)
Lemma parse_shape data :
  ∃ dump_data items,
    (∀ now, parse_s21_packet loads now data
            = imap (packet_of now data dump_data) items)
    ∧ Forall (λ item, is_command_key item.1 = true) items
    ∧ (∀ json_data, loads data = Some (JObject json_data) →
         NoDup json_data.*1 → NoDup items.*1).
Proof.
  assert (∃ dump_data items,
    (∀ now, [] = imap (packet_of now data dump_data) items)
    ∧ Forall (λ item, is_command_key item.1 = true) items
    ∧ (∀ json_data, loads data = Some (JObject json_data) →
         NoDup json_data.*1 → NoDup items.*1)) as Hnone.
  { exists "", []. repeat split; [constructor | intros; constructor]. }
  destruct (decide (data = "")) as [->|Hdata]; [done|].
  assert (∀ now, parse_s21_packet loads now data
    = match loads data with
      | Some (JObject json_data) =>
          if bool_decide (dict_get "protocol" json_data = Some "S21")
          then fold_left
                 (parse_step now data (default "" (dict_get "dump" json_data)))
                 json_data []
          else []
      | _ => []
      end) as Hparse.
  { intros now. unfold parse_s21_packet. by destruct data. }
  destruct (loads data) as [[json_data|]|] eqn:Hloads.
  - destruct (decide (dict_get "protocol" json_data = Some "S21"))
      as [Hproto|Hproto].
    + exists (default "" (dict_get "dump" json_data)),
        (filter (λ item, is_command_key item.1 = true) json_data).
      split; [|split].
      * intros now. by apply parse_s21_packet_object.
      * apply Forall_forall. by intros item [? _]%list_elem_of_filter.
      * intros j [= <-] Hnd. clear -Hnd.
        induction json_data as [|item l IH]; [constructor|].
        rewrite fmap_cons in Hnd. apply NoDup_cons in Hnd as [Hnotin Hnd].
        rewrite filter_cons. case_decide; [|by apply IH].
        rewrite fmap_cons. apply NoDup_cons. split; [|by apply IH].
        intros (item' & Heq & [_ Hin]%list_elem_of_filter)%list_elem_of_fmap.
        apply Hnotin. rewrite Heq. by apply list_elem_of_fmap_2.
    + destruct Hnone as (d & items & H1 & H2 & H3). exists d, items.
      split; [|done]. intros now.
      by rewrite Hparse, bool_decide_false.
  - destruct Hnone as (d & items & H1 & H2 & H3). exists d, items.
    split; [|done]. intros now. by rewrite Hparse.
  - destruct Hnone as (d & items & H1 & H2 & H3). exists d, items.
    split; [|done]. intros now. by rewrite Hparse.
Qed.

Lemma on_message_fold t msg :
  on_message loads t msg
  = match msg_payload msg with
    | None => (t, false)
    | Some payload =>
        fold_left
          (message_step (if endswith (msg_topic msg) "/tx" then "TX" else "RX"))
          (parse_s21_packet loads (msg_now msg) payload) (t, false)
    end.
Proof.
  unfold on_message. destruct (msg_payload msg) as [payload|]; [|done].
  by destruct (parse_s21_packet loads (msg_now msg) payload).
Qed.

Lemma message_step_eq direction t has_changes p :
  message_step direction (t, has_changes) p
  = ((update_command t (p_command p) (p_payload p) direction
        (p_timestamp p) (p_dump p)).2,
     if (update_command t (p_command p) (p_payload p) direction
           (p_timestamp p) (p_dump p)).1
     then true else has_changes).
Proof.
  unfold message_step. by destruct (update_command _ _ _ _ _ _).
Qed.

Lemma message_loop_sticky direction ps : ∀ t,
  (fold_left (message_step direction) ps (t, true)).2 = true.
Proof.
  induction ps as [|p ps IH]; intros t; [done|].
  cbn [fold_left]. rewrite message_step_eq.
  by destruct (update_command _ _ _ _ _ _).1.
Qed.




Lemma message_loop_new direction ps : ∀ t has_changes p,
  p ∈ ps → commands t !! p_command p = None →
  (fold_left (message_step direction) ps (t, has_changes)).2 = true.
Proof.
  induction ps as [|p0 ps IH]; intros t has_changes p Hin Hnew;
    [by apply elem_of_nil in Hin|].
  cbn [fold_left]. rewrite message_step_eq.
  destruct (commands t !! p_command p0) as [st|] eqn:Hst0.
  - apply elem_of_cons in Hin as [->|Hin]; [congruence|].
    apply (IH _ _ p Hin).
    rewrite update_command_commands, lookup_insert_ne; [done|congruence].
  - rewrite (update_command_new _ _ _ _ _ _ Hst0). simpl.
    apply message_loop_sticky.
Qed.

(** X20: A message with a packet for a command the tracker does not know yet
    always makes [on_message] call [update_display]. *)
Theorem on_message_new_command t msg payload p :
  msg_payload msg = Some payload →
  p ∈ parse_s21_packet loads (msg_now msg) payload →
  commands t !! p_command p = None →
  (on_message loads t msg).2 = true.
Proof.
  intros Hpayload Hin Hnew. rewrite on_message_fold, Hpayload.
  by eapply message_loop_new.
Qed.






Lemma update_command_inv t command value direction timestamp dump :
  tracker_inv t →
  is_command_key command = true →
  direction = "TX" ∨ direction = "RX" →
  (∃ v, value = to_hex_string v) →
  tracker_inv (update_command t command value direction timestamp dump).2.
Proof.
  intros [Hst Hhist] Hkey Hdir Hval. split.
  - intros k st. rewrite update_command_commands, lookup_insert.
    case_decide as Hk; [|apply Hst]. intros [= <-]. by subst k.
  - intros r.
    destruct (commands t !! command) as [st|] eqn:Hlook.
    + rewrite (update_command_tracked _ _ _ _ _ _ st Hlook). simpl.
      destruct (_ || _); [|apply Hhist].
      intros [Hin| ->]%elem_of_append_bounded; [by apply Hhist|].
      simpl. destruct (Hst _ _ Hlook) as (_ & _ & v1 & Hv1).
      destruct Hval as [v2 Hv2]. repeat split; [done..|]. by exists v1, v2.
    + rewrite (update_command_new _ _ _ _ _ _ Hlook). apply Hhist.
Qed.

Lemma message_loop_inv direction ps : ∀ t has_changes,
  tracker_inv t →
  direction = "TX" ∨ direction = "RX" →
  (∀ p, p ∈ ps →
     is_command_key (p_command p) = true
     ∧ ∃ v, p_payload p = to_hex_string v) →
  tracker_inv (fold_left (message_step direction) ps (t, has_changes)).1.
Proof.
  induction ps as [|p ps IH]; intros t has_changes Hinv Hdir Hps; [done|].
  cbn [fold_left]. rewrite message_step_eq. apply IH; [|done|].
  - destruct (Hps p) as [Hkey Hval]; [by left|].
    by apply update_command_inv.
  - intros p' Hin. apply Hps. by right.
Qed.

Lemma on_message_inv t msg :
  tracker_inv t → tracker_inv (on_message loads t msg).1.
Proof.
  intros Hinv. rewrite on_message_fold.
  destruct (msg_payload msg) as [payload|]; [|done].
  destruct (parse_shape payload) as (dump_data & items & -> & Hkeys & _).
  apply message_loop_inv; [done | by destruct (endswith _ _); auto |].
  intros p (i & item & -> & Hi)%elem_of_lookup_imap. simpl. split.
  - eapply Forall_forall in Hkeys; [exact Hkeys|].
    by eapply list_elem_of_lookup_2.
  - by eexists.
Qed.

Lemma deliver_inv msgs : ∀ t,
  tracker_inv t → tracker_inv (deliver loads msgs t).
Proof.
  induction msgs as [|msg msgs IH]; intros t Hinv; [done|].
  apply IH. by apply on_message_inv.
Qed.

Lemma init_inv : tracker_inv init.
Proof.
  split; [intros k st Hk | intros r Hr].
  - simpl in Hk. by rewrite lookup_empty in Hk.
  - by apply elem_of_nil in Hr.
Qed.

(** X22: In a tracker fed by [on_message] only, every command is a command key
    of some object (not [protocol], not [dump], at least two characters),
    every stored direction is ["TX"] or ["RX"], and every stored value is
    the hexadecimal encoding of a string. *)
Theorem deliver_states msgs k st :
  commands (deliver loads msgs init) !! k = Some st →
  is_command_key k = true
  ∧ (st_direction st = "TX" ∨ st_direction st = "RX")
  ∧ ∃ v, st_value st = to_hex_string v.
Proof. apply (deliver_inv msgs init init_inv). Qed.

(** X23: In a tracker fed by [on_message] only, the old and new value of every
    record of the history are hexadecimal encodings, so the two strings
    that [update_display] gets from [highlight_diff] for the VALUE line
    give back the old and the new value when the markers are deleted. *)
Theorem deliver_history msgs r :
  r ∈ recent_changes (deliver loads msgs init) →
  (∃ v1 v2, cr_old_value r = to_hex_string v1
            ∧ cr_new_value r = to_hex_string v2)
  ∧ strip_markers (highlight_diff (cr_old_value r) (cr_new_value r)).1
    = cr_old_value r
  ∧ strip_markers (highlight_diff (cr_old_value r) (cr_new_value r)).2
    = cr_new_value r.
Proof.
  intros Hr.
  destruct (deliver_inv msgs init init_inv) as [_ Hhist].
  destruct (Hhist r Hr) as (_ & _ & v1 & v2 & Hv1 & Hv2).
  split; [by exists v1, v2|].
  rewrite highlight_diff_mark, Hv1, Hv2. simpl.
  split; apply strip_mark, hex_string_marker_free, to_hex_string_hex.
Qed.

End Monitor.

(** * Topics and the DUMP line *)

Section Display.

Lemma substring_after s m rest :
  String.substring (String.length s) m (s +:+ rest)
  = String.substring 0 m rest.
Proof. induction s as [|a s IH]; [done|]. by rewrite string_app_cons. Qed.

Lemma endswith_app s suffix suffix' :
  String.length suffix' = String.length suffix →
  endswith (s +:+ suffix') suffix = String.eqb suffix' suffix.
Proof.
  intros Hlen. unfold endswith. rewrite string_app_length, Hlen.
  rewrite (proj2 (Nat.leb_le _ _)) by lia.
  replace (String.length s + String.length suffix - String.length suffix)
    with (String.length s) by lia.
  rewrite substring_after, <- Hlen. simpl. f_equal.
  clear. induction suffix' as [|a x IH]; [done|]. simpl. by rewrite IH.
Qed.

(** X24: Whatever the device id, even unset, a message on the transmit topic
    of [S21Config] is given direction ["TX"] by [on_message] and a message
    on the receive topic direction ["RX"]. *)
Theorem config_topic_directions base_path :
  topic_direction (tx_topic base_path) = "TX"
  ∧ topic_direction (rx_topic base_path) = "RX".
Proof.
  unfold topic_direction, tx_topic, rx_topic.
  rewrite <- !string_app_assoc. by rewrite !endswith_app.
Qed.

(** X25: When a dump of four characters or more is replaced by an empty one,
    the DUMP line shows the old dump cut in the middle of the fourth
    highlighted character: the last [INVERT] is followed by the character
    and the three dots, its [RESET] is lost. *)
Theorem old_dump_short_cuts_marker c1 c2 c3 c4 rest :
  old_dump_short (String c1 (String c2 (String c3 (String c4 rest)))) ""
  = (INVERT +:+ String c1 RESET) +:+ (INVERT +:+ String c2 RESET)
    +:+ (INVERT +:+ String c3 RESET) +:+ INVERT +:+ String c4 "...".
Proof.
  unfold old_dump_short. rewrite highlight_diff_mark.
  cbn [fst mark]. generalize (mark rest ""). intros r.
  change (INVERT +:+ String c1 (RESET +:+ INVERT +:+ String c2 (RESET
            +:+ INVERT +:+ String c3 (RESET +:+ INVERT +:+ String c4 (RESET
            +:+ r)))))
    with (String "027" (String "[" (String "7" (String "m" (String c1
         (String "027" (String "[" (String "0" (String "m"
         (String "027" (String "[" (String "7" (String "m" (String c2
         (String "027" (String "[" (String "0" (String "m"
         (String "027" (String "[" (String "7" (String "m" (String c3
         (String "027" (String "[" (String "0" (String "m"
         (String "027" (String "[" (String "7" (String "m" (String c4
         (String "027" (String "[" (String "0" (String "m"
         r)))))))))))))))))))))))))))))))))))).
  unfold truncate_value. cbn [String.length].
  rewrite Z.gtb_ltb, (proj2 (Z.ltb_lt _ _)) by lia.
  reflexivity.
Qed.

End Display.

(** * The properties of the parser and of the monitor at sample inputs *)

Section Samples.

Lemma parse_s21_packet_packets_witness :
  parse_s21_packet sample_loads (λ k, Z.of_nat k) sample_payload
  = [ mkPacket "F1" "3130" "10" "F1 10" sample_payload 0%Z;
      mkPacket "RH" "412B" "A+" "F1 10" sample_payload 1%Z ].
Proof.
  apply (parse_s21_packet_packets sample_loads (λ k, Z.of_nat k)
           sample_payload
           [("protocol", "S21"); ("F1", "10"); ("x", "y");
            ("dump", "F1 10"); ("RH", "A+")]); done.
Defined.

Lemma on_message_new_command_witness :
  (on_message sample_loads init (sample_message "info/dev/rx" 1)).2 = true.
Proof.
  apply (on_message_new_command sample_loads init
           (sample_message "info/dev/rx" 1) sample_payload
           (mkPacket "F1" "3130" "10" "F1 10" sample_payload 1%Z)).
  - reflexivity.
  - vm_compute. apply list_elem_of_here.
  - reflexivity.
Defined.



Lemma deliver_states_witness :
  is_command_key "RH" = true
  ∧ ("TX" = "TX" ∨ "TX" = "RX")
  ∧ ∃ v, "412B" = to_hex_string v.
Proof.
  apply (deliver_states sample_loads [sample_message "info/dev/tx" 1] "RH"
           (mkCommandState "412B" "TX" 2%Z "F1 10")).
  vm_compute. reflexivity.
Defined.

Lemma deliver_history_witness :
  (∃ v1 v2, "3130" = to_hex_string v1 ∧ "3131" = to_hex_string v2)
  ∧ strip_markers (highlight_diff "3130" "3131").1 = "3130"
  ∧ strip_markers (highlight_diff "3130" "3131").2 = "3131".
Proof.
  apply (deliver_history sample_loads
           [sample_message "info/dev/rx" 1;
            mkMessage "info/dev/rx" (Some sample_payload') (λ _, 5%Z)]
           (mkChangeRecord "F1" "3130" "3131" "F1 10" "" "RX" 5%Z true true)).
  vm_compute. apply list_elem_of_here.
Defined.

End Samples.
